(** * The super-manager path registry ([shared/configuration_paths.py])

    A shallow embedding of the module: importing it reads a few environment
    variables and derives every path with [os.path.join]; the one function,
    [find_servers_yaml], probes the filesystem.  Environment reads and
    existence checks are recorded as events, so that statements about which
    part of the module touches the outside world can be made and proved. *)

From stdpp Require Import gmap strings list.

(** ** Python string primitives *)

Module Str.

(** [not s] is false exactly for the non-empty strings. *)
Definition truthy (s : string) : bool :=
  match s with
  | EmptyString => false
  | String _ _ => true
  end.

(** [s.startswith(t)] *)
Definition startswith (s t : string) : bool := String.prefix t s.

(** [s.endswith(t)]: [s] is [t], or what follows its first character
    ends with [t]. *)
Fixpoint endswith (s t : string) : bool :=
  if String.eqb s t then true
  else match s with
       | EmptyString => false
       | String _ s' => endswith s' t
       end.

End Str.

(** ** [os.path.join] (posixpath)

    [os.path] is taken to be [posixpath], the module behind it on the
    systems where paths are written with ["/"].  [sep] is its separator and
    the loop is the one of [posixpath.join]: a component that starts with
    the separator discards what was built so far; otherwise it is appended,
    with a separator in between unless the path is empty or already ends
    with one.  On strings the function has no failure case. *)

Definition sep : string := "/".

Definition join_step (path b : string) : string :=
  if Str.startswith b sep then b
  else if negb (Str.truthy path) || Str.endswith path sep then path +:+ b
  else path +:+ sep +:+ b.

Fixpoint os_path_join (a : string) (p : list string) : string :=
  match p with
  | [] => a
  | b :: p' => os_path_join (join_step a b) p'
  end.

(** ** The outside world and the effects of the module *)

Inductive Event : Type :=
  | EnvironGet (name : string)
  | PathExists (path : string).

Record World : Type := mkWorld {
  environ : gmap string string;
  on_disk : string -> bool
}.

Definition IO (A : Type) : Type := World -> A * list Event.

Definition ret {A} (a : A) : IO A := fun _ => (a, []).

Definition bind {A B} (m : IO A) (k : A -> IO B) : IO B :=
  fun w =>
    let (a, t1) := m w in
    let (b, t2) := k a w in
    (b, t1 ++ t2).

Notation "'let!' x ':=' m 'in' k" := (bind m (fun x => k))
  (at level 10, x name, m at level 100, k at level 200, only parsing).

Definition result {A} (r : A * list Event) : A := r.1.
Definition trace {A} (r : A * list Event) : list Event := r.2.

(** [os.environ.get(name)] *)
Definition os_environ_get (name : string) : IO (option string) :=
  fun w => (environ w !! name, [EnvironGet name]).

(** [os.environ.get(name, dflt)] *)
Definition os_environ_get_default (name dflt : string) : IO string :=
  fun w => (default dflt (environ w !! name), [EnvironGet name]).

(** [os.path.exists(path)] *)
Definition os_path_exists (path : string) : IO bool :=
  fun w => (on_disk w path, [PathExists path]).

(** [x or y] where [x] is [None] or a string: [y] is evaluated only when
    [x] is [None] or empty. *)
Definition py_or (x : option string) (y : IO string) : IO string :=
  match x with
  | Some s => if Str.truthy s then ret s else y
  | None => y
  end.

(** ** The module's namespace after import *)

Record Registry : Type := mkRegistry {
  HOME : string;
  CLAUDE_DIR : string;
  SUPER_MANAGER_DIR : string;
  REGISTRIES_DIR : string;
  INSTRUCTIONS_BASE : string;
  INSTRUCTIONS_DIR : string;
  INSTRUCTIONS_BACKUP_DIR : string;
  INSTRUCTIONS_REPOS_DIR : string;
  INSTRUCTIONS_REPOS_CONFIG : string;
  LOGS_DIR : string;
  REPORTS_DIR : string;
  ARCHIVE_DIR : string;
  TESTS_DIR : string;
  CREDENTIALS_DIR : string;
  CONFIG_DIR : string;
  CONFIG_REPOS_DIR : string;
  CONFIG_BACKUPS_DIR : string;
  CONFIG_REPOS_JSON : string;
  CONFIG_INSTALLED_JSON : string;
  CONFIG_PENDING_JSON : string;
  DEFAULT_CONFIG_REPO : string;
  HOOK_REGISTRY : string;
  SKILL_REGISTRY : string;
  CONFIG_HASH_FILE : string;
  CREDENTIAL_REGISTRY : string;
  CONFIG_REPORT : string;
  SETTINGS_JSON : string;
  HOOKS_DIR : string;
  GLOBAL_SKILLS_DIR : string;
  MCP_SERVERS_YAML_PATHS : list string;
  SKILL_MGR_CLI : string;
  VALID_HOOK_EVENTS : list string;
  _MCP_DIR : string;
  KNOWN_ENV_FILES : list (string * string);
  SECRET_PATTERNS : list string
}.

(** The module body, statement by statement. *)
Definition load : IO Registry :=
  let! HOME :=
    (let! h := os_environ_get "HOME" in
     py_or h (os_environ_get_default "USERPROFILE" "")) in
  let CLAUDE_DIR := os_path_join HOME [".claude"] in
  let SUPER_MANAGER_DIR := os_path_join CLAUDE_DIR ["super-manager"] in
  let REGISTRIES_DIR := os_path_join SUPER_MANAGER_DIR ["registries"] in
  let INSTRUCTIONS_BASE := os_path_join CLAUDE_DIR ["instructions"] in
  let INSTRUCTIONS_DIR := INSTRUCTIONS_BASE in
  let INSTRUCTIONS_BACKUP_DIR := os_path_join INSTRUCTIONS_BASE ["backups"] in
  let INSTRUCTIONS_REPOS_DIR := os_path_join INSTRUCTIONS_BASE ["repos"] in
  let INSTRUCTIONS_REPOS_CONFIG := os_path_join INSTRUCTIONS_BASE ["repos.json"] in
  let LOGS_DIR := os_path_join SUPER_MANAGER_DIR ["logs"] in
  let REPORTS_DIR := os_path_join SUPER_MANAGER_DIR ["reports"] in
  let ARCHIVE_DIR := os_path_join SUPER_MANAGER_DIR ["archive"] in
  let TESTS_DIR := os_path_join SUPER_MANAGER_DIR ["tests"] in
  let CREDENTIALS_DIR := os_path_join SUPER_MANAGER_DIR ["credentials"] in
  let CONFIG_DIR := os_path_join SUPER_MANAGER_DIR ["config"] in
  let CONFIG_REPOS_DIR := os_path_join CONFIG_DIR ["repos"] in
  let CONFIG_BACKUPS_DIR := os_path_join CONFIG_DIR ["backups"] in
  let CONFIG_REPOS_JSON := os_path_join CONFIG_DIR ["repos.json"] in
  let CONFIG_INSTALLED_JSON := os_path_join CONFIG_DIR ["installed.json"] in
  let CONFIG_PENDING_JSON := os_path_join CONFIG_DIR ["pending.json"] in
  let DEFAULT_CONFIG_REPO := "grobomo/claude-code-defaults" in
  let HOOK_REGISTRY := os_path_join REGISTRIES_DIR ["hook-registry.json"] in
  let SKILL_REGISTRY := os_path_join REGISTRIES_DIR ["skill-registry.json"] in
  let CONFIG_HASH_FILE :=
    os_path_join REGISTRIES_DIR ["last-known-config-hash.txt"] in
  let CREDENTIAL_REGISTRY :=
    os_path_join CREDENTIALS_DIR ["credential-registry.json"] in
  let CONFIG_REPORT := os_path_join REPORTS_DIR ["config-report.md"] in
  let SETTINGS_JSON := os_path_join CLAUDE_DIR ["settings.json"] in
  let HOOKS_DIR := os_path_join CLAUDE_DIR ["hooks"] in
  let GLOBAL_SKILLS_DIR := os_path_join CLAUDE_DIR ["skills"] in
  let! override := os_environ_get_default "MCP_SERVERS_YAML" "" in
  let MCP_SERVERS_YAML_PATHS :=
    [ override;
      os_path_join HOME ["mcp"; "mcp-manager"; "servers.yaml"];
      os_path_join REGISTRIES_DIR ["servers.yaml"] ] in
  let MCP_SERVERS_YAML_PATHS := List.filter Str.truthy MCP_SERVERS_YAML_PATHS in
  let SKILL_MGR_CLI :=
    os_path_join GLOBAL_SKILLS_DIR ["skill-marketplace"; "cli"; "skill-mgr"] in
  let VALID_HOOK_EVENTS :=
    [ "SessionStart"; "SessionEnd"; "UserPromptSubmit";
      "PreToolUse"; "PostToolUse"; "PreCompact";
      "Stop"; "SubAgentSop"; "PermissionRequest" ] in
  let! _MCP_DIR := os_environ_get_default "MCP_DIR" (os_path_join HOME ["mcp"]) in
  let KNOWN_ENV_FILES := [] in
  let SECRET_PATTERNS :=
    [ "TOKEN"; "KEY"; "SECRET"; "PASSWORD"; "PASS"; "AUTH" ] in
  ret {| HOME := HOME;
         CLAUDE_DIR := CLAUDE_DIR;
         SUPER_MANAGER_DIR := SUPER_MANAGER_DIR;
         REGISTRIES_DIR := REGISTRIES_DIR;
         INSTRUCTIONS_BASE := INSTRUCTIONS_BASE;
         INSTRUCTIONS_DIR := INSTRUCTIONS_DIR;
         INSTRUCTIONS_BACKUP_DIR := INSTRUCTIONS_BACKUP_DIR;
         INSTRUCTIONS_REPOS_DIR := INSTRUCTIONS_REPOS_DIR;
         INSTRUCTIONS_REPOS_CONFIG := INSTRUCTIONS_REPOS_CONFIG;
         LOGS_DIR := LOGS_DIR;
         REPORTS_DIR := REPORTS_DIR;
         ARCHIVE_DIR := ARCHIVE_DIR;
         TESTS_DIR := TESTS_DIR;
         CREDENTIALS_DIR := CREDENTIALS_DIR;
         CONFIG_DIR := CONFIG_DIR;
         CONFIG_REPOS_DIR := CONFIG_REPOS_DIR;
         CONFIG_BACKUPS_DIR := CONFIG_BACKUPS_DIR;
         CONFIG_REPOS_JSON := CONFIG_REPOS_JSON;
         CONFIG_INSTALLED_JSON := CONFIG_INSTALLED_JSON;
         CONFIG_PENDING_JSON := CONFIG_PENDING_JSON;
         DEFAULT_CONFIG_REPO := DEFAULT_CONFIG_REPO;
         HOOK_REGISTRY := HOOK_REGISTRY;
         SKILL_REGISTRY := SKILL_REGISTRY;
         CONFIG_HASH_FILE := CONFIG_HASH_FILE;
         CREDENTIAL_REGISTRY := CREDENTIAL_REGISTRY;
         CONFIG_REPORT := CONFIG_REPORT;
         SETTINGS_JSON := SETTINGS_JSON;
         HOOKS_DIR := HOOKS_DIR;
         GLOBAL_SKILLS_DIR := GLOBAL_SKILLS_DIR;
         MCP_SERVERS_YAML_PATHS := MCP_SERVERS_YAML_PATHS;
         SKILL_MGR_CLI := SKILL_MGR_CLI;
         VALID_HOOK_EVENTS := VALID_HOOK_EVENTS;
         _MCP_DIR := _MCP_DIR;
         KNOWN_ENV_FILES := KNOWN_ENV_FILES;
         SECRET_PATTERNS := SECRET_PATTERNS |}.

(** ** [find_servers_yaml] *)

(** The [for path in ...] loop with its early [return path]; falling off
    the end of the list is the final [return None]. *)
Fixpoint find_servers_yaml_loop (paths : list string) : IO (option string) :=
  match paths with
  | [] => ret None
  | path :: rest =>
      let! found := os_path_exists path in
      if found then ret (Some path) else find_servers_yaml_loop rest
  end.

(** The function reads the module-level list. *)
Definition find_servers_yaml (m : Registry) : IO (option string) :=
  find_servers_yaml_loop (MCP_SERVERS_YAML_PATHS m).

(** ** Vocabulary of the statements *)

(** What [os.path.join] puts between a base directory and a relative
    component: nothing when the base is empty or already ends with the
    separator, the separator otherwise. *)
Definition glue (base : string) : string :=
  if negb (Str.truthy base) || Str.endswith base sep then "" else sep.

(** A relative literal: not empty, no trailing separator. *)
Definition rel (r : string) : bool :=
  Str.truthy r && negb (Str.endswith r sep).

(** A component that does not restart the path. *)
Definition seg (s : string) : bool := negb (Str.startswith s sep).

(** [base], the glue, the literal. *)
Definition under (base lit : string) : string := base +:+ glue base +:+ lit.

(** The value bound to [HOME]: the first of the two variables that is set
    and not empty, the empty string when there is none. *)
Definition base_dir (w : World) : string :=
  match environ w !! "HOME" with
  | Some (String c h) => String c h
  | _ => default "" (environ w !! "USERPROFILE")
  end.

(** The override entry that survives the filter: the value of
    [MCP_SERVERS_YAML] when the variable is set and not empty. *)
Definition yaml_override (w : World) : list string :=
  match environ w !! "MCP_SERVERS_YAML" with
  | Some (String c s) => [String c s]
  | _ => []
  end.

(** Every name of the module bound to a path built from [HOME] alone. *)
Definition derived_paths (m : Registry) : list string :=
  [ CLAUDE_DIR m; SUPER_MANAGER_DIR m; REGISTRIES_DIR m; INSTRUCTIONS_BASE m;
    INSTRUCTIONS_DIR m; INSTRUCTIONS_BACKUP_DIR m; INSTRUCTIONS_REPOS_DIR m;
    INSTRUCTIONS_REPOS_CONFIG m; LOGS_DIR m; REPORTS_DIR m; ARCHIVE_DIR m;
    TESTS_DIR m; CREDENTIALS_DIR m; CONFIG_DIR m; CONFIG_REPOS_DIR m;
    CONFIG_BACKUPS_DIR m; CONFIG_REPOS_JSON m; CONFIG_INSTALLED_JSON m;
    CONFIG_PENDING_JSON m; HOOK_REGISTRY m; SKILL_REGISTRY m;
    CONFIG_HASH_FILE m; CREDENTIAL_REGISTRY m; CONFIG_REPORT m;
    SETTINGS_JSON m; HOOKS_DIR m; GLOBAL_SKILLS_DIR m; SKILL_MGR_CLI m ].

(** The literal each of them carries, in the same order. *)
Definition fixed_suffixes : list string :=
  [ ".claude"; ".claude/super-manager"; ".claude/super-manager/registries";
    ".claude/instructions"; ".claude/instructions";
    ".claude/instructions/backups"; ".claude/instructions/repos";
    ".claude/instructions/repos.json"; ".claude/super-manager/logs";
    ".claude/super-manager/reports"; ".claude/super-manager/archive";
    ".claude/super-manager/tests"; ".claude/super-manager/credentials";
    ".claude/super-manager/config"; ".claude/super-manager/config/repos";
    ".claude/super-manager/config/backups";
    ".claude/super-manager/config/repos.json";
    ".claude/super-manager/config/installed.json";
    ".claude/super-manager/config/pending.json";
    ".claude/super-manager/registries/hook-registry.json";
    ".claude/super-manager/registries/skill-registry.json";
    ".claude/super-manager/registries/last-known-config-hash.txt";
    ".claude/super-manager/credentials/credential-registry.json";
    ".claude/super-manager/reports/config-report.md";
    ".claude/settings.json"; ".claude/hooks"; ".claude/skills";
    ".claude/skills/skill-marketplace/cli/skill-mgr" ].

(** The two candidates for [servers.yaml] that do not come from the
    override. *)
Definition home_yaml : string := "mcp/mcp-manager/servers.yaml".
Definition registries_yaml : string :=
  ".claude/super-manager/registries/servers.yaml".

(** The two kinds of event. *)
Definition is_environ_get (e : Event) : bool :=
  match e with EnvironGet _ => true | PathExists _ => false end.

Definition is_path_exists (e : Event) : bool :=
  match e with PathExists _ => true | EnvironGet _ => false end.

(** The variables the module body reads. *)
Definition consulted : list string :=
  [ "HOME"; "USERPROFILE"; "MCP_SERVERS_YAML"; "MCP_DIR" ].

(** Same environment on the consulted variables, any filesystem. *)
Definition same_environment (w1 w2 : World) : Prop :=
  forall name, name ∈ consulted -> environ w1 !! name = environ w2 !! name.

(** [p] lies inside the directory [dir]: it is [dir], a separator, and
    something more. *)
Definition inside (dir p : string) : bool := Str.startswith p (dir +:+ sep).

(** The names of the module bound to paths of the super-manager's own
    tree. *)
Definition super_manager_tree (m : Registry) : list string :=
  [ REGISTRIES_DIR m; LOGS_DIR m; REPORTS_DIR m; ARCHIVE_DIR m; TESTS_DIR m;
    CREDENTIALS_DIR m; CONFIG_DIR m; CONFIG_REPOS_DIR m; CONFIG_BACKUPS_DIR m;
    CONFIG_REPOS_JSON m; CONFIG_INSTALLED_JSON m; CONFIG_PENDING_JSON m;
    HOOK_REGISTRY m; SKILL_REGISTRY m; CONFIG_HASH_FILE m;
    CREDENTIAL_REGISTRY m; CONFIG_REPORT m ].

(** The names bound to what the assistant itself reads: its settings, its
    hooks, its skills, its instructions. *)
Definition assistant_paths (m : Registry) : list string :=
  [ SETTINGS_JSON m; HOOKS_DIR m; GLOBAL_SKILLS_DIR m; SKILL_MGR_CLI m;
    INSTRUCTIONS_BASE m; INSTRUCTIONS_DIR m; INSTRUCTIONS_BACKUP_DIR m;
    INSTRUCTIONS_REPOS_DIR m; INSTRUCTIONS_REPOS_CONFIG m ].

(** The two variables the base directory comes from. *)
Definition home_variables : list string := [ "HOME"; "USERPROFILE" ].

(** ** Sample worlds *)

(** [HOME] is ["/u"]; the only file on disk is the [servers.yaml] under
    the home directory. *)
Definition posix_home : World :=
  mkWorld {[ "HOME" := "/u" ]}
          (fun p => String.eqb p "/u/mcp/mcp-manager/servers.yaml").

(** As [posix_home], with an override that names a file not on disk: three
    candidates, of which only the second exists. *)
Definition with_override : World :=
  mkWorld {[ "HOME" := "/u"; "MCP_SERVERS_YAML" := "/etc/mcp/servers.yaml" ]}
          (fun p => String.eqb p "/u/mcp/mcp-manager/servers.yaml").

(** As [posix_home], with an empty disk. *)
Definition nothing_on_disk : World :=
  mkWorld {[ "HOME" := "/u" ]} (fun _ => false).

(** [HOME] is set, to the empty string, and [USERPROFILE] names a
    directory. *)
Definition empty_home : World :=
  mkWorld {[ "HOME" := ""; "USERPROFILE" := "/profiles/dev" ]} (fun _ => false).

(** Neither variable is set. *)
Definition no_home : World := mkWorld ∅ (fun _ => false).

(** [HOME] is set to the empty string and nothing else is set. *)
Definition blank_home : World := mkWorld {[ "HOME" := "" ]} (fun _ => false).

(** The same variables as [posix_home], another one besides, and a
    different filesystem. *)
Definition posix_home_elsewhere : World :=
  mkWorld {[ "HOME" := "/u"; "LANG" := "C" ]} (fun _ => true).

(** [MCP_DIR] is set, to the empty string. *)
Definition empty_mcp_dir : World :=
  mkWorld {[ "HOME" := "/u"; "MCP_DIR" := "" ]} (fun _ => false).

(** [MCP_DIR] and the override are set, and every path exists. *)
Definition everything_on_disk : World :=
  mkWorld {[ "HOME" := "/u"; "MCP_DIR" := "/srv/mcp";
             "MCP_SERVERS_YAML" := "/etc/mcp/servers.yaml" ]}
          (fun _ => true).

(** The only file on disk is none of the candidates. *)
Definition stray_file_on_disk : World :=
  mkWorld {[ "HOME" := "/u" ]} (fun p => String.eqb p "/tmp/servers.yaml").

(** The override names the very file of the first default candidate. *)
Definition override_repeats_default : World :=
  mkWorld {[ "HOME" := "/u";
             "MCP_SERVERS_YAML" := "/u/mcp/mcp-manager/servers.yaml" ]}
          (fun _ => false).

(** ** Small runs *)

Example load_hooks_dir : HOOKS_DIR (result (load posix_home)) = "/u/.claude/hooks".
Proof. vm_compute. reflexivity. Qed.

Example load_yaml_paths :
  MCP_SERVERS_YAML_PATHS (result (load posix_home)) =
  [ "/u/mcp/mcp-manager/servers.yaml";
    "/u/.claude/super-manager/registries/servers.yaml" ].
Proof. vm_compute. reflexivity. Qed.

Example load_trace :
  trace (load posix_home) =
  [ EnvironGet "HOME"; EnvironGet "MCP_SERVERS_YAML"; EnvironGet "MCP_DIR" ].
Proof. vm_compute. reflexivity. Qed.

Example find_on_posix_home :
  find_servers_yaml (result (load posix_home)) posix_home =
  (Some "/u/mcp/mcp-manager/servers.yaml",
   [ PathExists "/u/mcp/mcp-manager/servers.yaml" ]).
Proof. vm_compute. reflexivity. Qed.

(** ** Strings: append, and the test for a trailing separator *)

Section StringFacts.

Implicit Types s t x : string.

Lemma app_assoc_str x s t : (x +:+ s) +:+ t = x +:+ s +:+ t.
Proof.
  induction x as [|c x IH]; [reflexivity|].
  change (String c ((x +:+ s) +:+ t) = String c (x +:+ s +:+ t)).
  by rewrite IH.
Qed.

Lemma truthy_app_r x s : Str.truthy s = true -> Str.truthy (x +:+ s) = true.
Proof. by destruct x. Qed.

Lemma truthy_true s : Str.truthy s = true -> s <> "".
Proof. by destruct s. Qed.

Lemma endswith_sep_app x s :
  Str.truthy s = true -> Str.endswith (x +:+ s) sep = Str.endswith s sep.
Proof.
  intros Hs. induction x as [|c x IH]; [reflexivity|].
  change (String c x +:+ s) with (String c (x +:+ s)).
  cbn [Str.endswith]. rewrite IH.
  destruct (String.eqb_spec (String c (x +:+ s)) sep) as [E|_]; [|reflexivity].
  unfold sep in E. injection E as _ E.
  apply (truthy_app_r x) in Hs. rewrite E in Hs. discriminate.
Qed.

End StringFacts.

(** ** [os.path.join] on relative components *)

Section JoinFacts.

Implicit Types base x r s : string.

Lemma join_cons a b c (p : list string) :
  os_path_join a (b :: c :: p) = os_path_join (os_path_join a [b]) (c :: p).
Proof. reflexivity. Qed.

Lemma join_base base s :
  seg s = true -> os_path_join base [s] = (base +:+ glue base) +:+ s.
Proof.
  unfold seg, glue. intros Hs%negb_true_iff. cbn [os_path_join].
  unfold join_step. rewrite Hs.
  destruct (negb (Str.truthy base) || Str.endswith base sep).
  - f_equal. clear. induction base as [|c b IH]; [reflexivity|].
    change (String c b = String c (b +:+ "")). by rewrite <- IH.
  - by rewrite app_assoc_str.
Qed.

Lemma join_rel x r s :
  rel r = true -> seg s = true ->
  os_path_join (x +:+ r) [s] = x +:+ (r +:+ sep +:+ s).
Proof.
  unfold rel, seg.
  intros [Hr He%negb_true_iff]%andb_true_iff Hs%negb_true_iff.
  cbn [os_path_join]. unfold join_step.
  rewrite Hs, (truthy_app_r x r Hr), (endswith_sep_app x r Hr), He.
  cbn [negb orb]. by rewrite app_assoc_str.
Qed.

Lemma glue_cases base : glue base = "" \/ glue base = sep.
Proof. unfold glue. destruct (_ || _); auto. Qed.

End JoinFacts.

(** Rewrites every nest of joins over [base] into [base], the glue and one
    literal, innermost join first. *)
Ltac join_norm base :=
  rewrite ?join_cons;
  rewrite ?(join_base base) by reflexivity;
  rewrite ?(join_rel (base +:+ glue base)) by reflexivity;
  rewrite ?app_assoc_str.

(** ** Running the module body on an arbitrary world *)

(** Splits on how the [HOME] line resolves and evaluates the body. *)
Ltac run_load w :=
  unfold load, bind, py_or, os_environ_get, os_environ_get_default, ret,
    result, trace, base_dir;
  destruct (environ w !! "HOME") as [[|? ?]|];
  cbn [fst snd Str.truthy HOME CLAUDE_DIR SUPER_MANAGER_DIR REGISTRIES_DIR
       INSTRUCTIONS_BASE INSTRUCTIONS_DIR INSTRUCTIONS_BACKUP_DIR
       INSTRUCTIONS_REPOS_DIR INSTRUCTIONS_REPOS_CONFIG LOGS_DIR REPORTS_DIR
       ARCHIVE_DIR TESTS_DIR CREDENTIALS_DIR CONFIG_DIR CONFIG_REPOS_DIR
       CONFIG_BACKUPS_DIR CONFIG_REPOS_JSON CONFIG_INSTALLED_JSON
       CONFIG_PENDING_JSON DEFAULT_CONFIG_REPO HOOK_REGISTRY SKILL_REGISTRY
       CONFIG_HASH_FILE CREDENTIAL_REGISTRY CONFIG_REPORT SETTINGS_JSON
       HOOKS_DIR GLOBAL_SKILLS_DIR MCP_SERVERS_YAML_PATHS SKILL_MGR_CLI
       VALID_HOOK_EVENTS _MCP_DIR KNOWN_ENV_FILES SECRET_PATTERNS app].

Lemma HOME_load w : HOME (result (load w)) = base_dir w.
Proof. run_load w; reflexivity. Qed.

(** ** The derived paths and their literals *)

Lemma derived_paths_load w :
  derived_paths (result (load w)) = map (under (base_dir w)) fixed_suffixes.
Proof.
  unfold derived_paths, fixed_suffixes, under.
  run_load w;
    match goal with |- context [os_path_join ?b [".claude"]] => generalize b end;
    intros base; cbn [map]; join_norm base; reflexivity.
Qed.

(** ** The lookup loop *)

Section Lookup.

Variable w : World.

Local Abbreviation missing := (fun q : string => on_disk w q = false).

Lemma loop_cons_missing path rest :
  on_disk w path = false ->
  find_servers_yaml_loop (path :: rest) w =
  let (r, t) := find_servers_yaml_loop rest w in (r, PathExists path :: t).
Proof.
  intros E. cbn [find_servers_yaml_loop]. unfold bind, os_path_exists.
  rewrite E. by destruct (find_servers_yaml_loop rest w).
Qed.

Lemma loop_cons_found path rest :
  on_disk w path = true ->
  find_servers_yaml_loop (path :: rest) w = (Some path, [PathExists path]).
Proof.
  intros E. cbn [find_servers_yaml_loop]. unfold bind, os_path_exists.
  by rewrite E.
Qed.

Lemma loop_skips before p after :
  Forall missing before -> on_disk w p = true ->
  find_servers_yaml_loop (before ++ p :: after) w =
  (Some p, map PathExists (before ++ [p])).
Proof.
  intros Hb Hp. induction Hb as [|q before Hq _ IH]; cbn [app map].
  - by apply loop_cons_found.
  - rewrite (loop_cons_missing _ _ Hq), IH. reflexivity.
Qed.

Lemma loop_all_missing paths :
  Forall missing paths ->
  find_servers_yaml_loop paths w = (None, map PathExists paths).
Proof.
  induction 1 as [|q paths Hq _ IH]; [reflexivity|].
  rewrite (loop_cons_missing _ _ Hq), IH. reflexivity.
Qed.

Lemma loop_some paths p :
  result (find_servers_yaml_loop paths w) = Some p ->
  exists before after,
    paths = before ++ p :: after /\ Forall missing before /\
    on_disk w p = true.
Proof.
  induction paths as [|q paths IH]; [discriminate|].
  destruct (on_disk w q) eqn:Hq.
  - rewrite (loop_cons_found _ _ Hq). intros [= ->].
    exists [], paths. by repeat split.
  - rewrite (loop_cons_missing _ _ Hq).
    destruct (find_servers_yaml_loop paths w) as [r t] eqn:E.
    intros Hr. destruct (IH Hr) as (before & after & -> & Hb & Hp).
    exists (q :: before), after. repeat split; [|done].
    by constructor.
Qed.

Lemma loop_trace paths :
  Forall (fun e => is_path_exists e = true)
         (trace (find_servers_yaml_loop paths w)).
Proof.
  induction paths as [|q paths IH]; [constructor|].
  destruct (on_disk w q) eqn:Hq.
  - rewrite (loop_cons_found _ _ Hq). by repeat constructor.
  - rewrite (loop_cons_missing _ _ Hq).
    destruct (find_servers_yaml_loop paths w). by constructor.
Qed.

End Lookup.

(** ** What the lookup returns *)

(** C1: [find_servers_yaml] returns the first candidate, in list order, that
    exists on disk, as the very string held in the list; with three
    candidates of which only the second exists it returns the second; and
    whatever it returns is such a first existing candidate. *)
Theorem find_servers_yaml_first_existing (m : Registry) (w : World) :
  (forall before p after,
      MCP_SERVERS_YAML_PATHS m = before ++ p :: after ->
      Forall (fun q => on_disk w q = false) before ->
      on_disk w p = true ->
      result (find_servers_yaml m w) = Some p)
  /\ (forall a b c,
         MCP_SERVERS_YAML_PATHS m = [a; b; c] ->
         on_disk w a = false -> on_disk w b = true -> on_disk w c = false ->
         result (find_servers_yaml m w) = Some b)
  /\ (forall p,
         result (find_servers_yaml m w) = Some p ->
         exists before after,
           MCP_SERVERS_YAML_PATHS m = before ++ p :: after /\
           Forall (fun q => on_disk w q = false) before /\
           on_disk w p = true).
Proof.
  unfold find_servers_yaml. split; [|split].
  - intros before p after -> Hb Hp. by rewrite (loop_skips w before p after).
  - intros a b c -> Ha Hb _.
    change [a; b; c] with ([a] ++ b :: [c]).
    rewrite (loop_skips w [a] b [c]); [done| |done]. by repeat constructor.
  - intros p. apply loop_some.
Qed.

Lemma find_servers_yaml_first_existing_witness :
  result (find_servers_yaml (result (load with_override)) with_override) =
  Some "/u/mcp/mcp-manager/servers.yaml".
Proof.
  apply (proj1 (proj2 (find_servers_yaml_first_existing
                         (result (load with_override)) with_override))
           "/etc/mcp/servers.yaml" "/u/mcp/mcp-manager/servers.yaml"
           "/u/.claude/super-manager/registries/servers.yaml");
    vm_compute; reflexivity.
Defined.

(** C2: when no candidate exists on disk, [find_servers_yaml] returns [None],
    an ordinary value, after probing every candidate once, in order. *)
Theorem find_servers_yaml_not_found (m : Registry) (w : World) :
  Forall (fun q => on_disk w q = false) (MCP_SERVERS_YAML_PATHS m) ->
  find_servers_yaml m w = (None, map PathExists (MCP_SERVERS_YAML_PATHS m)).
Proof. apply loop_all_missing. Qed.

Lemma find_servers_yaml_not_found_witness :
  find_servers_yaml (result (load nothing_on_disk)) nothing_on_disk =
  (None, [ PathExists "/u/mcp/mcp-manager/servers.yaml";
           PathExists "/u/.claude/super-manager/registries/servers.yaml" ]).
Proof.
  apply (find_servers_yaml_not_found (result (load nothing_on_disk))
           nothing_on_disk).
  vm_compute. repeat constructor.
Defined.

(** ** The search list for [servers.yaml] *)

Lemma truthy_under base lit :
  Str.truthy lit = true -> Str.truthy (under base lit) = true.
Proof. intros H. unfold under. by do 2 apply truthy_app_r. Qed.

Lemma yaml_candidates_load w :
  let m := result (load w) in
  os_path_join (HOME m) ["mcp"; "mcp-manager"; "servers.yaml"] =
    under (base_dir w) home_yaml
  /\ os_path_join (REGISTRIES_DIR m) ["servers.yaml"] =
    under (base_dir w) registries_yaml.
Proof.
  cbv zeta. rewrite HOME_load. unfold under, home_yaml, registries_yaml.
  split; [join_norm (base_dir w); reflexivity|].
  run_load w;
    match goal with |- context [os_path_join ?b [".claude"]] => generalize b end;
    intros base; join_norm base; reflexivity.
Qed.

Lemma yaml_paths_filter w :
  let m := result (load w) in
  MCP_SERVERS_YAML_PATHS m =
  List.filter Str.truthy
    [ default "" (environ w !! "MCP_SERVERS_YAML");
      os_path_join (HOME m) ["mcp"; "mcp-manager"; "servers.yaml"];
      os_path_join (REGISTRIES_DIR m) ["servers.yaml"] ].
Proof. run_load w; reflexivity. Qed.

Lemma yaml_paths_load w :
  MCP_SERVERS_YAML_PATHS (result (load w)) =
  yaml_override w ++
  [ under (base_dir w) home_yaml; under (base_dir w) registries_yaml ].
Proof.
  rewrite yaml_paths_filter.
  destruct (yaml_candidates_load w) as [-> ->].
  cbn [List.filter]. rewrite !truthy_under by reflexivity.
  unfold yaml_override.
  by destruct (environ w !! "MCP_SERVERS_YAML") as [[|c s]|].
Qed.

Lemma REGISTRIES_DIR_load w :
  REGISTRIES_DIR (result (load w)) =
  under (base_dir w) ".claude/super-manager/registries".
Proof.
  exact (f_equal (fun l : list string => default "" (l !! 2%nat))
           (derived_paths_load w)).
Qed.

(** C3: the search list is the override (when [MCP_SERVERS_YAML] is set and
    not empty), then [<home>/mcp/mcp-manager/servers.yaml], then
    [<registries>/servers.yaml]; it is the three entries with the empty ones
    filtered out, order kept; without an override it is exactly the last
    two. *)
Theorem yaml_search_list (w : World) :
  let m := result (load w) in
  let in_home := os_path_join (HOME m) ["mcp"; "mcp-manager"; "servers.yaml"] in
  let in_registries := os_path_join (REGISTRIES_DIR m) ["servers.yaml"] in
  MCP_SERVERS_YAML_PATHS m = yaml_override w ++ [in_home; in_registries]
  /\ MCP_SERVERS_YAML_PATHS m =
     List.filter Str.truthy
       [default "" (environ w !! "MCP_SERVERS_YAML"); in_home; in_registries]
  /\ in_home = under (HOME m) "mcp/mcp-manager/servers.yaml"
  /\ in_registries = REGISTRIES_DIR m +:+ "/servers.yaml"
  /\ (environ w !! "MCP_SERVERS_YAML" = None ->
      MCP_SERVERS_YAML_PATHS m = [in_home; in_registries])
  /\ (forall v, environ w !! "MCP_SERVERS_YAML" = Some v -> v <> "" ->
      MCP_SERVERS_YAML_PATHS m = [v; in_home; in_registries]).
Proof.
  cbv zeta.
  pose proof (yaml_paths_load w) as Hl.
  destruct (yaml_candidates_load w) as [Ha Hb]. cbv zeta in Ha, Hb.
  rewrite Ha, Hb, Hl. split; [reflexivity|]. split.
  { rewrite <- Hl, yaml_paths_filter. cbv zeta. by rewrite Ha, Hb. }
  split; [by rewrite HOME_load|]. split.
  { rewrite REGISTRIES_DIR_load. unfold under, registries_yaml.
    by rewrite !app_assoc_str. }
  unfold yaml_override. split.
  - by intros ->.
  - intros v -> Hv. by destruct v.
Qed.

Lemma yaml_search_list_witness :
  MCP_SERVERS_YAML_PATHS (result (load posix_home)) =
  [ "/u/mcp/mcp-manager/servers.yaml";
    "/u/.claude/super-manager/registries/servers.yaml" ].
Proof.
  apply (proj1 (proj2 (proj2 (proj2 (proj2 (yaml_search_list posix_home)))))).
  vm_compute. reflexivity.
Defined.

(** ** Resolving the base directory *)

(** [HOME] is present in [empty_home], with the empty string as its value,
    and yet the base directory is the value of [USERPROFILE], which the
    module did read. *)
Lemma home_present_but_empty :
  environ empty_home !! "HOME" = Some ""
  /\ HOME (result (load empty_home)) = "/profiles/dev"
  /\ HOME (result (load empty_home)) <> ""
  /\ trace (load empty_home) =
     [ EnvironGet "HOME"; EnvironGet "USERPROFILE";
       EnvironGet "MCP_SERVERS_YAML"; EnvironGet "MCP_DIR" ].
Proof. vm_compute. by repeat split. Qed.

Lemma load_trace_cases w :
  trace (load w) =
  EnvironGet "HOME" ::
  (match environ w !! "HOME" with
   | Some (String _ _) => []
   | _ => [EnvironGet "USERPROFILE"]
   end) ++ [EnvironGet "MCP_SERVERS_YAML"; EnvironGet "MCP_DIR"].
Proof. run_load w; reflexivity. Qed.

(** C4, as the module has it: a [HOME] that is set and not empty is the
    base directory, and then [USERPROFILE] is not even read; when [HOME] is
    absent or empty the module reads [USERPROFILE] and takes its value, the
    empty string when it is absent too. *)
Theorem home_resolution (w : World) :
  let m := result (load w) in
  (forall v, environ w !! "HOME" = Some v -> v <> "" ->
     HOME m = v /\ EnvironGet "USERPROFILE" ∉ trace (load w))
  /\ (environ w !! "HOME" = None \/ environ w !! "HOME" = Some "" ->
      HOME m = default "" (environ w !! "USERPROFILE")
      /\ EnvironGet "USERPROFILE" ∈ trace (load w)).
Proof.
  cbv zeta. rewrite HOME_load, load_trace_cases. unfold base_dir. split.
  - intros [|c v] -> Hv; [done|]. split; [done|].
    cbn [app]. intros Hin. repeat (apply elem_of_cons in Hin as [?|Hin]; [done|]).
    by apply elem_of_nil in Hin.
  - intros [-> | ->]; (split; [done|]); cbn [app]; set_solver.
Qed.

Lemma home_resolution_witness :
  HOME (result (load posix_home)) = "/u"
  /\ EnvironGet "USERPROFILE" ∉ trace (load posix_home).
Proof.
  apply (proj1 (home_resolution posix_home) "/u").
  - vm_compute. reflexivity.
  - discriminate.
Defined.

(** ** Derived paths over the base directory *)

Lemma startswith_app base x : Str.startswith (base +:+ x) base = true.
Proof.
  unfold Str.startswith. induction base as [|c b IH]; [by destruct x|].
  change (String c b +:+ x) with (String c (b +:+ x)). cbn [String.prefix].
  by destruct (Ascii.ascii_dec c c).
Qed.

Lemma _MCP_DIR_load w :
  _MCP_DIR (result (load w)) =
  default (under (base_dir w) "mcp") (environ w !! "MCP_DIR").
Proof.
  unfold under.
  run_load w;
    match goal with |- context [os_path_join ?b ["mcp"]] => generalize b end;
    intros base; rewrite (join_base base) by reflexivity;
    by rewrite app_assoc_str.
Qed.

(** What follows the value of [HOME] in the hooks path is ["/.claude/hooks"]
    for ["/u"] and [".claude/hooks"] for the empty string: no one literal
    serves for every value.  And with [HOME] set to the empty string and
    [USERPROFILE] set, the hooks path is not even the join of that value and
    the literal: it lies under the profile directory. *)
Lemma hooks_dir_suffix_varies :
  (environ posix_home !! "HOME" = Some "/u"
   /\ HOOKS_DIR (result (load posix_home)) = "/u" +:+ "/.claude/hooks")
  /\ (environ blank_home !! "HOME" = Some ""
      /\ HOOKS_DIR (result (load blank_home)) = ".claude/hooks"
      /\ HOOKS_DIR (result (load blank_home)) <> "" +:+ "/.claude/hooks")
  /\ (environ empty_home !! "HOME" = Some ""
      /\ HOOKS_DIR (result (load empty_home)) = "/profiles/dev/.claude/hooks"
      /\ HOOKS_DIR (result (load empty_home)) <>
         os_path_join "" [".claude"; "hooks"])
  /\ ~ (exists suffix, forall w H,
           environ w !! "HOME" = Some H ->
           HOOKS_DIR (result (load w)) = H +:+ suffix).
Proof.
  split; [by vm_compute|]. split; [by vm_compute|]. split; [by vm_compute|].
  intros [suffix Hs].
  pose proof (Hs posix_home "/u" eq_refl) as H1.
  pose proof (Hs blank_home "" eq_refl) as H2.
  vm_compute in H1, H2. congruence.
Qed.

(** C5, as the module has it: every derived path is the base directory,
    then one separator unless the base is empty or already ends with one,
    then the path's fixed literal; so each begins with the base directory,
    which is the value of [HOME] whenever that is set and not empty; with
    [HOME] set to ["/u"] the hooks path is ["/u/.claude/hooks"]. *)
Theorem derived_paths_under_base (w : World) :
  let m := result (load w) in
  derived_paths m = map (under (HOME m)) fixed_suffixes
  /\ Forall (fun p => Str.startswith p (HOME m) = true) (derived_paths m)
  /\ (glue (HOME m) = "" \/ glue (HOME m) = sep)
  /\ (exists override,
         MCP_SERVERS_YAML_PATHS m =
         override ++ [under (HOME m) home_yaml; under (HOME m) registries_yaml])
  /\ (environ w !! "MCP_DIR" = None -> _MCP_DIR m = under (HOME m) "mcp")
  /\ (forall H, environ w !! "HOME" = Some H -> H <> "" -> HOME m = H)
  /\ (environ w !! "HOME" = Some "/u" -> HOOKS_DIR m = "/u/.claude/hooks").
Proof.
  cbv zeta. rewrite HOME_load.
  pose proof (derived_paths_load w) as Hd.
  split; [done|]. split.
  { rewrite Hd. apply Forall_forall. intros p (lit & -> & _)%list_elem_of_fmap.
    apply startswith_app. }
  split; [apply glue_cases|]. split.
  { exists (yaml_override w). apply yaml_paths_load. }
  split.
  { intros E. by rewrite _MCP_DIR_load, E. }
  split.
  { intros [|c H] E Hne; [done|]. unfold base_dir. by rewrite E. }
  intros E.
  pose proof (f_equal (fun l : list string => default "" (l !! 25%nat)) Hd) as Hh.
  change (HOOKS_DIR (result (load w)) = under (base_dir w) ".claude/hooks") in Hh.
  rewrite Hh. unfold base_dir. by rewrite E.
Qed.

Lemma derived_paths_under_base_witness :
  HOOKS_DIR (result (load posix_home)) = "/u/.claude/hooks".
Proof.
  apply (proj2 (proj2 (proj2 (proj2 (proj2 (proj2
           (derived_paths_under_base posix_home))))))).
  vm_compute. reflexivity.
Defined.

(** C6: with neither [HOME] nor [USERPROFILE] set the module loads, its base
    directory is the empty string, and every derived path is its literal
    alone, a relative path. *)
Theorem no_home_relative_paths (w : World) :
  environ w !! "HOME" = None ->
  environ w !! "USERPROFILE" = None ->
  exists m events,
    load w = (m, events)
    /\ HOME m = ""
    /\ derived_paths m = fixed_suffixes
    /\ Forall (fun p => Str.startswith p sep = false) (derived_paths m)
    /\ (exists override,
           MCP_SERVERS_YAML_PATHS m = override ++ [home_yaml; registries_yaml])
    /\ (environ w !! "MCP_DIR" = None -> _MCP_DIR m = "mcp").
Proof.
  intros E1 E2.
  assert (base_dir w = "") as Hb by (unfold base_dir; by rewrite E1, E2).
  exists (result (load w)), (trace (load w)).
  split; [by destruct (load w)|].
  rewrite HOME_load, derived_paths_load, yaml_paths_load, _MCP_DIR_load, Hb.
  split; [done|]. split; [done|]. split; [by vm_compute; repeat constructor|].
  split; [by exists (yaml_override w)|].
  by intros ->.
Qed.

Lemma no_home_relative_paths_witness :
  exists m events,
    load no_home = (m, events)
    /\ HOME m = ""
    /\ derived_paths m = fixed_suffixes
    /\ Forall (fun p => Str.startswith p sep = false) (derived_paths m)
    /\ (exists override,
           MCP_SERVERS_YAML_PATHS m = override ++ [home_yaml; registries_yaml])
    /\ (environ no_home !! "MCP_DIR" = None -> _MCP_DIR m = "mcp").
Proof.
  apply (no_home_relative_paths no_home); vm_compute; reflexivity.
Defined.

(** ** The constant lists *)

Lemma VALID_HOOK_EVENTS_load w :
  VALID_HOOK_EVENTS (result (load w)) =
  [ "SessionStart"; "SessionEnd"; "UserPromptSubmit";
    "PreToolUse"; "PostToolUse"; "PreCompact";
    "Stop"; "SubAgentSop"; "PermissionRequest" ].
Proof. run_load w; reflexivity. Qed.

Lemma SECRET_PATTERNS_load w :
  SECRET_PATTERNS (result (load w)) =
  [ "TOKEN"; "KEY"; "SECRET"; "PASSWORD"; "PASS"; "AUTH" ].
Proof. run_load w; reflexivity. Qed.

(** C7: in every environment [VALID_HOOK_EVENTS] has exactly nine entries,
    none of them empty, no two of them equal. *)
Theorem valid_hook_events_shape (w : World) :
  let events := VALID_HOOK_EVENTS (result (load w)) in
  length events = 9%nat
  /\ Forall (fun e => e <> "") events
  /\ NoDup events.
Proof.
  cbv zeta. rewrite VALID_HOOK_EVENTS_load.
  split; [reflexivity|]. split.
  - repeat constructor; discriminate.
  - apply (bool_decide_unpack _). by vm_compute.
Qed.

(** C8: in every environment [SECRET_PATTERNS] is the list of upper-case
    literals as written; ["TOKEN"] is a member, ["token"] is not, and the two
    strings are different. *)
Theorem secret_patterns_case_sensitive (w : World) :
  let patterns := SECRET_PATTERNS (result (load w)) in
  patterns = [ "TOKEN"; "KEY"; "SECRET"; "PASSWORD"; "PASS"; "AUTH" ]
  /\ ("TOKEN" ∈ patterns)
  /\ ("token" ∉ patterns)
  /\ String.eqb "token" "TOKEN" = false
  /\ existsb (String.eqb "token") patterns = false.
Proof.
  cbv zeta. rewrite SECRET_PATTERNS_load.
  split; [reflexivity|]. split; [set_solver|]. split; [|done].
  intros Hin. repeat (apply elem_of_cons in Hin as [?|Hin]; [done|]).
  by apply elem_of_nil in Hin.
Qed.

(** ** Purity of the module body *)

Lemma load_trace_environ w :
  Forall (fun e => is_environ_get e = true) (trace (load w)).
Proof.
  rewrite load_trace_cases.
  destruct (environ w !! "HOME") as [[|c h]|]; by repeat constructor.
Qed.

Lemma load_same_environment w1 w2 :
  same_environment w1 w2 -> load w1 = load w2.
Proof.
  intros Hs.
  pose proof (Hs "HOME" ltac:(set_solver)) as E1.
  pose proof (Hs "USERPROFILE" ltac:(set_solver)) as E2.
  pose proof (Hs "MCP_SERVERS_YAML" ltac:(set_solver)) as E3.
  pose proof (Hs "MCP_DIR" ltac:(set_solver)) as E4.
  unfold load, bind, py_or, os_environ_get, os_environ_get_default, ret.
  cbv beta. rewrite E1.
  destruct (environ w2 !! "HOME") as [[|c h]|]; cbv beta iota delta [Str.truthy];
    by rewrite ?E2, E3, E4.
Qed.

(** C9: two worlds that agree on the environment variables the module
    consults load the same registry, with the same events, whatever is on
    their disks; loading only reads the environment, it never probes the
    filesystem; the probes are those of [find_servers_yaml], which does
    nothing else. *)
Theorem resolution_pure (w1 w2 : World) :
  same_environment w1 w2 ->
  load w1 = load w2
  /\ Forall (fun e => is_environ_get e = true) (trace (load w1))
  /\ (forall name, EnvironGet name ∈ trace (load w1) -> name ∈ consulted)
  /\ (forall m, Forall (fun e => is_path_exists e = true)
                       (trace (find_servers_yaml m w1))).
Proof.
  intros Hs. split; [by apply load_same_environment|].
  split; [apply load_trace_environ|]. split.
  - intros name. rewrite load_trace_cases. unfold consulted.
    destruct (environ w1 !! "HOME") as [[|c h]|]; cbn [app]; intros Hin;
      repeat (apply elem_of_cons in Hin as [[= ->]|Hin];
              [by repeat constructor|]);
      by apply elem_of_nil in Hin.
  - intros m. apply loop_trace.
Qed.

Lemma resolution_pure_witness :
  load posix_home = load posix_home_elsewhere.
Proof.
  apply (resolution_pure posix_home posix_home_elsewhere).
  intros name Hn. unfold consulted in Hn.
  repeat (apply elem_of_cons in Hn as [->|Hn]; [vm_compute; reflexivity|]).
  by apply elem_of_nil in Hn.
Defined.

(** C10: in every environment the search list holds at least the two
    candidates that do not come from the override, and both are non-empty
    strings, also when the base directory is empty. *)
Theorem search_list_never_empty (w : World) :
  let m := result (load w) in
  let in_home := os_path_join (HOME m) ["mcp"; "mcp-manager"; "servers.yaml"] in
  let in_registries := os_path_join (REGISTRIES_DIR m) ["servers.yaml"] in
  MCP_SERVERS_YAML_PATHS m <> []
  /\ 2 <= length (MCP_SERVERS_YAML_PATHS m)
  /\ in_home ∈ MCP_SERVERS_YAML_PATHS m
  /\ in_registries ∈ MCP_SERVERS_YAML_PATHS m
  /\ in_home <> "" /\ in_registries <> ""
  /\ Forall (fun p => p <> "") (MCP_SERVERS_YAML_PATHS m)
  /\ under "" home_yaml <> "" /\ under "" registries_yaml <> "".
Proof.
  cbv zeta. destruct (yaml_candidates_load w) as [Ha Hb]. cbv zeta in Ha, Hb.
  rewrite Ha, Hb, yaml_paths_load.
  assert (forall lit, Str.truthy lit = true -> under (base_dir w) lit <> "")
    as Hne by (intros lit Hl; by apply truthy_true, truthy_under).
  split; [by destruct (yaml_override w)|]. split.
  { rewrite length_app. cbn [length]. lia. }
  split; [set_solver|]. split; [set_solver|].
  split; [by apply Hne|]. split; [by apply Hne|]. split; [|done].
  apply Forall_app. split.
  - unfold yaml_override.
    destruct (environ w !! "MCP_SERVERS_YAML") as [[|c s]|]; by repeat constructor.
  - repeat constructor; by apply Hne.
Qed.

(** ** More on the lookup *)

Section LookupMore.

Variable w : World.

Lemma loop_none paths :
  result (find_servers_yaml_loop paths w) = None ->
  Forall (fun q => on_disk w q = false) paths.
Proof.
  induction paths as [|q paths IH]; [constructor|].
  destruct (on_disk w q) eqn:Hq.
  - by rewrite (loop_cons_found w _ _ Hq).
  - rewrite (loop_cons_missing w _ _ Hq).
    destruct (find_servers_yaml_loop paths w) as [r t].
    intros Hr. constructor; [done|]. by apply IH.
Qed.

Lemma loop_trace_bounds paths :
  let events := trace (find_servers_yaml_loop paths w) in
  length events <= length paths
  /\ (paths <> [] -> 1 <= length events)
  /\ (forall e, e ∈ events -> exists q, q ∈ paths /\ e = PathExists q).
Proof.
  cbv zeta. induction paths as [|q paths (IH1 & IH2 & IH3)].
  - cbn. split; [lia|]. split; [done|]. by intros e ?%elem_of_nil.
  - destruct (on_disk w q) eqn:Hq.
    + rewrite (loop_cons_found w _ _ Hq). cbn. split; [lia|]. split; [lia|].
      intros e ->%list_elem_of_singleton. exists q. split; [left|done].
    + rewrite (loop_cons_missing w _ _ Hq).
      destruct (find_servers_yaml_loop paths w) as [r t]. cbn in *.
      split; [lia|]. split; [lia|].
      intros e [->|He]%elem_of_cons.
      * exists q. split; [left|done].
      * destruct (IH3 e He) as (q' & Hq' & ->). exists q'. split; [by right|done].
Qed.

End LookupMore.

Lemma loop_frame w1 w2 paths :
  Forall (fun q => on_disk w1 q = on_disk w2 q) paths ->
  find_servers_yaml_loop paths w1 = find_servers_yaml_loop paths w2.
Proof.
  induction 1 as [|q paths Hq _ IH]; [reflexivity|].
  destruct (on_disk w2 q) eqn:E2.
  - by rewrite (loop_cons_found w1), (loop_cons_found w2) by congruence.
  - rewrite (loop_cons_missing w1), (loop_cons_missing w2) by congruence.
    by rewrite IH.
Qed.

Lemma yaml_paths_entries w :
  Forall (fun p => p <> "") (MCP_SERVERS_YAML_PATHS (result (load w))).
Proof.
  rewrite yaml_paths_load. apply Forall_app. split.
  - unfold yaml_override.
    destruct (environ w !! "MCP_SERVERS_YAML") as [[|c s]|]; by repeat constructor.
  - repeat constructor; by apply truthy_true, truthy_under.
Qed.

(** X1: the lookup stops at the first candidate that exists: it probes the
    candidates before it and that one, in order, and none of those after. *)
Theorem find_servers_yaml_stops_at_first (m : Registry) (w : World)
    (before after : list string) (p : string) :
  MCP_SERVERS_YAML_PATHS m = before ++ p :: after ->
  Forall (fun q => on_disk w q = false) before ->
  on_disk w p = true ->
  trace (find_servers_yaml m w) = map PathExists (before ++ [p])
  /\ length (trace (find_servers_yaml m w)) = S (length before).
Proof.
  intros E Hb Hp. unfold find_servers_yaml.
  rewrite E, (loop_skips w before p after Hb Hp). unfold trace. cbn [snd].
  split; [done|]. rewrite length_map, length_app. cbn. lia.
Qed.

Lemma find_servers_yaml_stops_at_first_witness :
  trace (find_servers_yaml (result (load everything_on_disk))
           everything_on_disk) =
  [ PathExists "/etc/mcp/servers.yaml" ].
Proof.
  apply (find_servers_yaml_stops_at_first
           (result (load everything_on_disk)) everything_on_disk []
           [ "/u/mcp/mcp-manager/servers.yaml";
             "/u/.claude/super-manager/registries/servers.yaml" ]
           "/etc/mcp/servers.yaml");
    [vm_compute; reflexivity | constructor | reflexivity].
Defined.

(** X2: the lookup answers [None] exactly when no candidate exists on
    disk. *)
Theorem find_servers_yaml_none_iff (m : Registry) (w : World) :
  result (find_servers_yaml m w) = None <->
  Forall (fun q => on_disk w q = false) (MCP_SERVERS_YAML_PATHS m).
Proof.
  unfold find_servers_yaml. split.
  - apply loop_none.
  - intros H. by rewrite (loop_all_missing w _ H).
Qed.

Lemma find_servers_yaml_none_iff_witness :
  Forall (fun q => on_disk nothing_on_disk q = false)
         (MCP_SERVERS_YAML_PATHS (result (load nothing_on_disk))).
Proof.
  apply (proj1 (find_servers_yaml_none_iff (result (load nothing_on_disk))
                  nothing_on_disk)).
  vm_compute. reflexivity.
Defined.

(** X3: the lookup sees the disk only at the candidates: two worlds whose
    disks agree on them give the same answer and the same probes. *)
Theorem find_servers_yaml_frame (m : Registry) (w1 w2 : World) :
  Forall (fun q => on_disk w1 q = on_disk w2 q) (MCP_SERVERS_YAML_PATHS m) ->
  find_servers_yaml m w1 = find_servers_yaml m w2.
Proof. apply loop_frame. Qed.

Lemma find_servers_yaml_frame_witness :
  find_servers_yaml (result (load nothing_on_disk)) nothing_on_disk =
  find_servers_yaml (result (load nothing_on_disk)) stray_file_on_disk.
Proof.
  apply (find_servers_yaml_frame (result (load nothing_on_disk))
           nothing_on_disk stray_file_on_disk).
  vm_compute. repeat constructor.
Defined.

(** ** Loading, then looking up *)

(** X4: an override that is set, not empty, and names an existing file is
    what the lookup returns on the loaded module, after a single probe:
    the default candidates are not even looked at. *)
Theorem override_on_disk_wins (w : World) (v : string) :
  environ w !! "MCP_SERVERS_YAML" = Some v ->
  v <> "" ->
  on_disk w v = true ->
  find_servers_yaml (result (load w)) w = (Some v, [PathExists v]).
Proof.
  intros E Hv Hd. unfold find_servers_yaml.
  rewrite yaml_paths_load. unfold yaml_override. rewrite E.
  destruct v as [|c v]; [done|]. cbn [app].
  by apply loop_cons_found.
Qed.

Lemma override_on_disk_wins_witness :
  find_servers_yaml (result (load everything_on_disk)) everything_on_disk =
  (Some "/etc/mcp/servers.yaml", [PathExists "/etc/mcp/servers.yaml"]).
Proof.
  apply (override_on_disk_wins everything_on_disk "/etc/mcp/servers.yaml").
  - vm_compute. reflexivity.
  - discriminate.
  - reflexivity.
Defined.

(** X5: on the loaded module the lookup makes at least one probe and at
    most three, each of a path of the search list, and never of the empty
    path: an unset or empty override is not probed. *)
Theorem loaded_lookup_probes (w : World) :
  let m := result (load w) in
  let events := trace (find_servers_yaml m w) in
  1 <= length events <= 3
  /\ (forall e, e ∈ events ->
        exists q, q ∈ MCP_SERVERS_YAML_PATHS m /\ e = PathExists q)
  /\ PathExists "" ∉ events.
Proof.
  cbv zeta. unfold find_servers_yaml.
  destruct (loop_trace_bounds w (MCP_SERVERS_YAML_PATHS (result (load w))))
    as (Hle & Hge & Hin).
  assert (length (MCP_SERVERS_YAML_PATHS (result (load w))) <= 3) as Hlen.
  { rewrite yaml_paths_load, length_app. unfold yaml_override.
    destruct (environ w !! "MCP_SERVERS_YAML") as [[|c s]|]; cbn; lia. }
  assert (MCP_SERVERS_YAML_PATHS (result (load w)) <> []) as Hne.
  { rewrite yaml_paths_load. by destruct (yaml_override w). }
  split; [split; [by apply Hge | lia]|]. split; [done|].
  intros (q & Hq & [= <-])%Hin.
  pose proof (yaml_paths_entries w) as Hall.
  rewrite Forall_forall in Hall. by apply (Hall "").
Qed.

Lemma loaded_lookup_probes_witness :
  1 <= length (trace (find_servers_yaml (result (load with_override))
                        with_override)) <= 3.
Proof. apply (proj1 (loaded_lookup_probes with_override)). Defined.

Lemma NoDup_two {A} (a b : A) : a <> b -> NoDup [a; b].
Proof.
  intros H. apply NoDup_cons. split; [|apply NoDup_singleton].
  by intros ->%list_elem_of_singleton.
Qed.

Lemma injective_under base : Inj (=) (=) (under base).
Proof.
  intros l1 l2 E. unfold under in E.
  by apply String.app_inj, String.app_inj in E.
Qed.

(** X6: the filter keeps duplicates.  The two default candidates always
    differ, so the search list is free of duplicates exactly when the
    override that made it into the list is neither of them. *)
Theorem search_list_duplicates (w : World) :
  let m := result (load w) in
  let in_home := os_path_join (HOME m) ["mcp"; "mcp-manager"; "servers.yaml"] in
  let in_registries := os_path_join (REGISTRIES_DIR m) ["servers.yaml"] in
  in_home <> in_registries
  /\ (NoDup (MCP_SERVERS_YAML_PATHS m) <->
      forall v, environ w !! "MCP_SERVERS_YAML" = Some v ->
                v <> in_home /\ v <> in_registries).
Proof.
  cbv zeta. destruct (yaml_candidates_load w) as [Ha Hb]. cbv zeta in Ha, Hb.
  rewrite Ha, Hb, yaml_paths_load.
  assert (under (base_dir w) home_yaml <> under (base_dir w) registries_yaml)
    as Hab by (by intros ?%injective_under).
  assert (forall lit, Str.truthy lit = true -> "" <> under (base_dir w) lit)
    as Hne by (intros lit Hl E;
               by apply (truthy_true _ (truthy_under (base_dir w) lit Hl))).
  split; [done|]. unfold yaml_override.
  destruct (environ w !! "MCP_SERVERS_YAML") as [[|c s]|]; cbn [app].
  - split.
    + intros _ v [= <-]. split; by apply Hne.
    + intros _. by apply NoDup_two.
  - rewrite NoDup_cons. split.
    + intros [Hnot _] v [= <-].
      split; intros E; apply Hnot; rewrite E; [left | right; left].
    + intros H. destruct (H _ eq_refl) as [H1 H2]. split.
      * intros [?|[?|[]%elem_of_nil]%elem_of_cons]%elem_of_cons; done.
      * by apply NoDup_two.
  - split; [done|]. intros _. by apply NoDup_two.
Qed.

Lemma search_list_duplicates_witness :
  NoDup (MCP_SERVERS_YAML_PATHS (result (load with_override))).
Proof.
  apply (proj2 (search_list_duplicates with_override)).
  intros v E. vm_compute in E. injection E as <-.
  split; vm_compute; discriminate.
Defined.

(** X7: [MCP_DIR], when set, is taken as it is, the empty string included:
    unlike [HOME], an empty value does not fall back to the default, which
    is used only when the variable is absent. *)
Theorem mcp_dir_override (w : World) :
  let m := result (load w) in
  (forall v, environ w !! "MCP_DIR" = Some v -> _MCP_DIR m = v)
  /\ (environ w !! "MCP_DIR" = None ->
      _MCP_DIR m = os_path_join (HOME m) ["mcp"]
      /\ os_path_join (HOME m) ["mcp"; "mcp-manager"; "servers.yaml"] =
         _MCP_DIR m +:+ "/mcp-manager/servers.yaml").
Proof.
  cbv zeta. rewrite _MCP_DIR_load, HOME_load. split.
  - by intros v ->.
  - intros ->. cbn [default]. unfold under.
    rewrite !join_cons, !(join_base (base_dir w)) by reflexivity.
    rewrite !(join_rel (base_dir w +:+ glue (base_dir w))) by reflexivity.
    by rewrite !app_assoc_str.
Qed.

Lemma mcp_dir_override_witness :
  _MCP_DIR (result (load empty_mcp_dir)) = "".
Proof.
  apply (proj1 (mcp_dir_override empty_mcp_dir) "").
  vm_compute. reflexivity.
Defined.

Example override_repeats_default_list :
  MCP_SERVERS_YAML_PATHS (result (load override_repeats_default)) =
  [ "/u/mcp/mcp-manager/servers.yaml"; "/u/mcp/mcp-manager/servers.yaml";
    "/u/.claude/super-manager/registries/servers.yaml" ].
Proof. vm_compute. reflexivity. Qed.

(** ** The shape of the tree *)

Lemma startswith_common x a b :
  Str.startswith (x +:+ b) (x +:+ a) = Str.startswith b a.
Proof.
  unfold Str.startswith. induction x as [|c x IH]; [reflexivity|].
  change (String.prefix (String c (x +:+ a)) (String c (x +:+ b)) =
          String.prefix a b).
  cbn [String.prefix]. by destruct (Ascii.ascii_dec c c).
Qed.

Lemma inside_under base dir p :
  inside (under base dir) (under base p) = inside dir p.
Proof.
  unfold inside, under. rewrite !app_assoc_str.
  by rewrite !startswith_common.
Qed.

Lemma startswith_sep_head c x y :
  Str.startswith (String c x) sep = Str.startswith (String c y) sep.
Proof.
  unfold Str.startswith, sep. cbn [String.prefix].
  destruct (Ascii.ascii_dec _ c); [by destruct x, y | reflexivity].
Qed.

(** Rewrites the fields of the loaded module met in the goal into
    [under base literal]. *)
Ltac fields_under w :=
  run_load w;
  match goal with |- context [os_path_join ?b [".claude"]] => generalize b end;
  intros base; join_norm base;
  repeat match goal with
         | |- context [base +:+ glue base +:+ ?l] =>
             change (base +:+ glue base +:+ l) with (under base l)
         end.


(** X9: the super-manager's directories and files all lie inside
    [SUPER_MANAGER_DIR], itself inside [CLAUDE_DIR]; what the assistant
    reads (settings, hooks, skills, instructions) lies inside [CLAUDE_DIR]
    and outside [SUPER_MANAGER_DIR]; the default candidate in the home
    directory lies outside [CLAUDE_DIR]. *)
Theorem super_manager_tree_separate (w : World) :
  let m := result (load w) in
  inside (CLAUDE_DIR m) (SUPER_MANAGER_DIR m) = true
  /\ Forall (fun p => inside (SUPER_MANAGER_DIR m) p = true)
            (super_manager_tree m)
  /\ Forall (fun p => inside (CLAUDE_DIR m) p = true
                      /\ inside (SUPER_MANAGER_DIR m) p = false)
            (assistant_paths m)
  /\ inside (REGISTRIES_DIR m)
            (os_path_join (REGISTRIES_DIR m) ["servers.yaml"]) = true
  /\ inside (CLAUDE_DIR m)
            (os_path_join (HOME m) ["mcp"; "mcp-manager"; "servers.yaml"])
     = false.
Proof.
  cbv zeta. unfold super_manager_tree, assistant_paths.
  fields_under w;
    repeat first [apply Forall_nil | apply Forall_cons | split];
    rewrite inside_under; reflexivity.
Qed.

Lemma fixed_suffixes_relative :
  Forall (fun lit => rel lit = true /\ Str.startswith lit sep = false)
         fixed_suffixes.
Proof. unfold fixed_suffixes. repeat constructor. Qed.

Lemma derived_path_literal w p :
  p ∈ derived_paths (result (load w)) ->
  exists lit,
    p = (base_dir w +:+ glue (base_dir w)) +:+ lit
    /\ rel lit = true /\ Str.startswith lit sep = false.
Proof.
  rewrite derived_paths_load. intros (lit & -> & Hl)%list_elem_of_fmap.
  exists lit. unfold under. rewrite app_assoc_str. split; [done|].
  pose proof fixed_suffixes_relative as H. rewrite Forall_forall in H.
  by apply H.
Qed.

(** X10: every derived path is a non-empty string without a trailing
    separator, so joining a relative component onto it appends one
    separator and the component, whatever the base directory. *)
Theorem join_onto_derived_path (w : World) (p s : string) :
  p ∈ derived_paths (result (load w)) ->
  Str.startswith s sep = false ->
  p <> ""
  /\ Str.endswith p sep = false
  /\ os_path_join p [s] = p +:+ sep +:+ s.
Proof.
  intros (lit & -> & [Ht He%negb_true_iff]%andb_true_iff & _)%derived_path_literal
         Hs.
  split; [by apply truthy_true, truthy_app_r|].
  split; [by rewrite endswith_sep_app|].
  rewrite join_rel; [by rewrite !app_assoc_str| |unfold seg; by rewrite Hs].
  unfold rel. by rewrite Ht, He.
Qed.

Lemma join_onto_derived_path_witness :
  os_path_join "/u/.claude/hooks" ["session-start.sh"] =
  "/u/.claude/hooks/session-start.sh".
Proof.
  apply (join_onto_derived_path posix_home "/u/.claude/hooks"
           "session-start.sh").
  - apply (bool_decide_unpack _). by vm_compute.
  - reflexivity.
Defined.

(** X11: a derived path is absolute exactly when the base directory is:
    the literals never restart the path and never make a relative base
    absolute. *)
Theorem derived_paths_absolute_with_base (w : World) :
  let m := result (load w) in
  Forall (fun p => Str.startswith p sep = Str.startswith (HOME m) sep)
         (derived_paths m).
Proof.
  cbv zeta. rewrite HOME_load. apply Forall_forall.
  intros p (lit & -> & _ & Hl)%derived_path_literal.
  destruct (base_dir w) as [|c b].
  - exact Hl.
  - rewrite app_assoc_str. apply startswith_sep_head.
Qed.

(** ** What the other variables do not touch *)

(** X12: the base directory, every derived path and the two default
    candidates are settled by [HOME] and [USERPROFILE] alone: neither
    [MCP_DIR] nor [MCP_SERVERS_YAML] moves any of them, and [MCP_DIR] does
    not enter the search list at all. *)
Theorem paths_depend_on_home_only (w1 w2 : World) :
  (forall name, name ∈ home_variables ->
                environ w1 !! name = environ w2 !! name) ->
  let m1 := result (load w1) in
  let m2 := result (load w2) in
  HOME m1 = HOME m2
  /\ derived_paths m1 = derived_paths m2
  /\ (exists o1 o2 defaults,
         MCP_SERVERS_YAML_PATHS m1 = o1 ++ defaults
         /\ MCP_SERVERS_YAML_PATHS m2 = o2 ++ defaults
         /\ length defaults = 2%nat)
  /\ (environ w1 !! "MCP_SERVERS_YAML" = environ w2 !! "MCP_SERVERS_YAML" ->
      MCP_SERVERS_YAML_PATHS m1 = MCP_SERVERS_YAML_PATHS m2).
Proof.
  intros Hs. cbv zeta.
  assert (base_dir w1 = base_dir w2) as Hb.
  { unfold base_dir.
    rewrite (Hs "HOME"), (Hs "USERPROFILE"); [done|by right; left|by left]. }
  rewrite !HOME_load, !derived_paths_load, !yaml_paths_load, Hb.
  split; [done|]. split; [done|]. split.
  - by exists (yaml_override w1), (yaml_override w2),
      [under (base_dir w2) home_yaml; under (base_dir w2) registries_yaml].
  - intros E. unfold yaml_override. by rewrite E.
Qed.

Lemma paths_depend_on_home_only_witness :
  derived_paths (result (load posix_home)) =
  derived_paths (result (load everything_on_disk)).
Proof.
  apply (paths_depend_on_home_only posix_home everything_on_disk).
  intros name Hn. unfold home_variables in Hn.
  repeat (apply elem_of_cons in Hn as [->|Hn]; [vm_compute; reflexivity|]).
  by apply elem_of_nil in Hn.
Defined.
